(** * behance-api: a shallow embedding of [index.js]

    The client is thin glue around two external packages ([request], [qs])
    and one data file ([libs/query-validation.json]).  The embedding keeps
    the shape of the JavaScript source:

    - JavaScript values are an inductive type [value]; plain objects and
      functions carry their own enumerable properties in the order
      [Object.keys] enumerates them;
    - a function body evaluates to a [completion]: it returns a value or
      throws one;
    - the generated client methods run in a small state monad [js] whose
      state is the log of HTTP requests handed to [request];
    - the schema table of [query-validation.json] is a section variable. *)

From Stdlib Require Import ZArith String Ascii List Bool DecimalString Lia.
Import ListNotations.

Set Warnings "-register-all".
Local Open Scope string_scope.
Local Open Scope Z_scope.

(* ================================================================= *)
(** ** JavaScript values *)

Module Js.

(** Numbers: the integers that a double represents exactly, and [NaN]
    (which [undefined + id] produces).  Fractions and infinities never
    arise in the client.  [String] prints an integer in full decimal as
    long as its magnitude is below [10^21]; that is the range in which
    [number_to_string] is the JavaScript conversion. *)
Inductive number :=
| Int (z : Z)
| NaN.

(** Strings are sequences of 7-bit characters.  An object [VObj props] is
    an ordinary object, with [Object.prototype] as its prototype, given by
    the list of its own enumerable string-keyed properties in enumeration
    order; a property named [valueOf] or [toString] in that list replaces
    the inherited conversion method.  A function [VFun src props] is
    described by the string [src] that it converts to ([String(f)],
    [f + '']), its source text unless it has conversion methods of its own
    that yield another string, and by its own enumerable properties; a
    function whose conversion fails or yields no string is not in the
    model.  [VErr name message] is an [Error] instance with the inherited
    conversion.  [VMethod src throws result] is a function known by what a
    call without arguments does, as a conversion calls the [valueOf] or
    [toString] of an object: it throws [result] when [throws] is set and
    returns [result] otherwise; it has no enumerable properties and
    converts to [src]. *)
Inductive value :=
| VUndefined
| VNull
| VBool (b : bool)
| VNum (n : number)
| VStr (s : string)
| VObj (props : list (string * value))
| VFun (src : string) (props : list (string * value))
| VErr (name message : string)
| VMethod (src : string) (throws : bool) (result : value).

(** A function body either returns or throws a value. *)
Inductive completion (A : Type) :=
| Return (a : A)
| Throw (e : value).
Arguments Return {A} a.
Arguments Throw {A} e.

Definition cbind {A B} (c : completion A) (k : A -> completion B) : completion B :=
  match c with
  | Return a => k a
  | Throw e => Throw e
  end.

Notation "x <- c ;; k" := (cbind c (fun x => k))
  (at level 61, c at next level, right associativity).

(** [Error(msg)], [TypeError(msg)]. *)
Definition Error (msg : string) : value := VErr "Error" msg.
Definition TypeError (msg : string) : value := VErr "TypeError" msg.

Definition number_to_string (n : number) : string :=
  match n with
  | Int z => NilZero.string_of_int (Z.to_int z)
  | NaN => "NaN"
  end.

(** [String(v)], also the conversion of template literals [`${v}`], for a
    primitive, a function, an error, and an object that converts as
    [Object.prototype.toString] does.  The client applies it to the token,
    to the endpoint (a primitive, the result of [+]), to the names of the
    table entries and to a caught parse error. *)
Definition to_string (v : value) : string :=
  match v with
  | VUndefined => "undefined"
  | VNull => "null"
  | VBool true => "true"
  | VBool false => "false"
  | VNum n => number_to_string n
  | VStr s => s
  | VObj _ => "[object Object]"
  | VFun src _ => src
  | VErr name message =>
      if (message =? "")%string then name else name ++ ": " ++ message
  | VMethod src _ _ => src
  end.

(** The primitive that a value converts to when its conversion methods
    are the inherited ones: a primitive is itself, an object or a function
    its string form. *)
Definition inherited_primitive (v : value) : value :=
  match v with
  | VObj _ | VFun _ _ | VErr _ _ | VMethod _ _ _ => VStr (to_string v)
  | _ => v
  end.

Definition is_primitive (v : value) : bool :=
  match v with
  | VObj _ | VFun _ _ | VErr _ _ | VMethod _ _ _ => false
  | _ => true
  end.

(** The own property [k] of an object, if it has one. *)
Fixpoint own_property (k : string) (props : list (string * value)) : option value :=
  match props with
  | [] => None
  | (k', v) :: rest => if (k' =? k)%string then Some v else own_property k rest
  end.

(** What a call of [f] without arguments completes with, when [f] is
    callable.  A function given as [VFun] is described by its text only; in
    the position of a conversion method it counts as a function with an
    empty body, which returns [undefined]. *)
Definition call_method (f : value) : option (completion value) :=
  match f with
  | VMethod _ true e => Some (Throw e)
  | VMethod _ false r => Some (Return r)
  | VFun _ _ => Some (Return VUndefined)
  | _ => None
  end.

(** One step of [OrdinaryToPrimitive] with the method [m]: the conversion
    ends when [m] is callable and throws or returns a primitive, and goes
    on to the next method otherwise. *)
Definition try_method (m : value) : option (completion value) :=
  match call_method m with
  | Some (Throw e) => Some (Throw e)
  | Some (Return r) => if is_primitive r then Some (Return r) else None
  | None => None
  end.

(** [ToPrimitive] as [+] applies it: on an object, [valueOf] is tried
    first and [toString] second, each one the object's own property if it
    has one and the method of [Object.prototype] otherwise (its [valueOf]
    returns the object itself, its [toString] the text [[object
    Object]]); when neither yields a primitive the conversion throws a
    [TypeError]. *)
Definition to_primitive (v : value) : completion value :=
  match v with
  | VObj props =>
      match match own_property "valueOf" props with
            | Some m => try_method m
            | None => None
            end with
      | Some c => c
      | None =>
          match own_property "toString" props with
          | None => Return (VStr "[object Object]")
          | Some m =>
              match try_method m with
              | Some c => c
              | None => Throw (TypeError "Cannot convert object to primitive value")
              end
          end
      end
  | VFun _ _ | VErr _ _ | VMethod _ _ _ => Return (inherited_primitive v)
  | _ => Return v
  end.

(** [ToNumber] on a primitive that is not a string. *)
Definition to_number (v : value) : number :=
  match v with
  | VNull => Int 0
  | VBool true => Int 1
  | VBool false => Int 0
  | VNum n => n
  | _ => NaN
  end.

Definition number_add (a b : number) : number :=
  match a, b with
  | Int x, Int y => Int (x + y)
  | _, _ => NaN
  end.

Definition is_string (v : value) : bool :=
  match v with VStr _ => true | _ => false end.

(** The binary [+] on operands whose conversion is the inherited one, as
    primitives are: concatenation as soon as one operand is a string,
    numeric addition otherwise. *)
Definition add (a b : value) : value :=
  let pa := inherited_primitive a in
  let pb := inherited_primitive b in
  if is_string pa || is_string pb
  then VStr (to_string pa ++ to_string pb)
  else VNum (number_add (to_number pa) (to_number pb)).

(** [ToBoolean]. *)
Definition truthy (v : value) : bool :=
  match v with
  | VUndefined | VNull | VBool false | VNum NaN | VStr "" => false
  | VNum (Int z) => negb (z =? 0)
  | _ => true
  end.

Definition typeof (v : value) : string :=
  match v with
  | VUndefined => "undefined"
  | VNull => "object"
  | VBool _ => "boolean"
  | VNum _ => "number"
  | VStr _ => "string"
  | VObj _ => "object"
  | VFun _ _ => "function"
  | VErr _ _ => "object"
  | VMethod _ _ _ => "function"
  end.

(** [a === lit] for a primitive literal [lit]. *)
Definition strict_eq (a lit : value) : bool :=
  match a, lit with
  | VUndefined, VUndefined => true
  | VNull, VNull => true
  | VBool x, VBool y => Bool.eqb x y
  | VNum (Int x), VNum (Int y) => x =? y
  | VStr x, VStr y => (x =? y)%string
  | _, _ => false
  end.

Definition index_names (n : nat) : list string :=
  map (fun i => NilZero.string_of_uint (Nat.to_uint i)) (seq 0 n).

(** [Object.keys(v)]: own enumerable string keys; [undefined] and [null]
    cannot be converted to an object. *)
Definition Object_keys (v : value) : completion (list string) :=
  match v with
  | VUndefined | VNull =>
      Throw (TypeError "Cannot convert undefined or null to object")
  | VBool _ | VNum _ | VErr _ _ | VMethod _ _ _ => Return []
  | VStr s => Return (index_names (String.length s))
  | VObj props | VFun _ props => Return (map fst props)
  end.

Fixpoint lookup (k : string) (props : list (string * value)) : value :=
  match props with
  | [] => VUndefined
  | (k', v) :: rest => if (k' =? k)%string then v else lookup k rest
  end.

(** Property read [o.k]. *)
Definition get (o : value) (k : string) : completion value :=
  match o with
  | VUndefined | VNull =>
      Throw (TypeError ("Cannot read property '" ++ k ++ "' of " ++ to_string o))
  | VObj props | VFun _ props => Return (lookup k props)
  | VErr name message =>
      Return (if (k =? "name")%string then VStr name
              else if (k =? "message")%string then VStr message
              else VUndefined)
  | _ => Return VUndefined
  end.

(** [arr[i]] on an array of strings. *)
Definition array_get (arr : list string) (i : nat) : value :=
  match nth_error arr i with
  | Some s => VStr s
  | None => VUndefined
  end.

Fixpoint indexOf_from (arr : list string) (x : string) (i : Z) : Z :=
  match arr with
  | [] => -1
  | y :: rest => if (y =? x)%string then i else indexOf_from rest x (i + 1)
  end.

(** [arr.indexOf(v)] on an array of strings: only a string can be strictly
    equal to an element. *)
Definition indexOf (arr : list string) (v : value) : Z :=
  match v with
  | VStr x => indexOf_from arr x 0
  | _ => -1
  end.

(** One iteration of a [for] body either falls through to the update
    expression or leaves the enclosing function. *)
Inductive iteration :=
| Next
| Leave (c : completion value).

(** [for (let i = start; i < start + n; i++) body]; running off the end of
    the loop, and then of the function, yields [undefined]. *)
Fixpoint for_loop (n : nat) (i : nat) (body : nat -> iteration) : completion value :=
  match n with
  | O => Return VUndefined
  | S n' =>
      match body i with
      | Leave c => c
      | Next => for_loop n' (S i) body
      end
  end.

End Js.
Import Js.

(* ================================================================= *)
(** ** The [qs] package *)

Module Qs.

(** Characters that [qs] leaves as they are: letters, digits and [-._~]. *)
Definition unreserved (c : ascii) : bool :=
  let n := nat_of_ascii c in
  ((48 <=? n) && (n <=? 57) || (65 <=? n) && (n <=? 90)
   || (97 <=? n) && (n <=? 122)
   || (n =? 45) || (n =? 46) || (n =? 95) || (n =? 126))%nat.

Definition hex_digit (n : nat) : ascii :=
  nth n (list_ascii_of_string "0123456789ABCDEF") "0"%char.

Definition encode_char (c : ascii) : string :=
  if unreserved c then String c ""
  else
    let n := nat_of_ascii c in
    String "%" (String (hex_digit (n / 16)) (String (hex_digit (n mod 16)) "")).

Fixpoint encode (s : string) : string :=
  match s with
  | EmptyString => ""
  | String c rest => encode_char c ++ encode rest
  end.

(** The [key=value] pairs contributed by the value stored under [prefix]:
    primitives give one pair, [null] an empty value, [undefined] nothing,
    and a nested object one pair per leaf under [prefix[key]]. *)
Fixpoint pairs (prefix : string) (v : value) {struct v} : list string :=
  match v with
  | VUndefined => []
  | VNull => [encode prefix ++ "="]
  | VBool _ | VNum _ | VStr _ => [encode prefix ++ "=" ++ encode (to_string v)]
  | VErr _ _ | VMethod _ _ _ => []
  | VObj props | VFun _ props =>
      (fix nested (ps : list (string * value)) : list string :=
         match ps with
         | [] => []
         | (k, x) :: rest =>
             (pairs (prefix ++ "[" ++ k ++ "]") x ++ nested rest)%list
         end) props
  end.

Fixpoint join (sep : string) (parts : list string) : string :=
  match parts with
  | [] => ""
  | [p] => p
  | p :: rest => p ++ sep ++ join sep rest
  end.

(** Modelled from the spec: the [qs] package is an external dependency and
    not among the sources.  [stringify] is "a standard
    nested-object-capable query-string encoding" under which "empty/absent
    options produce an empty query fragment"; the definition follows the
    package's defaults (RFC 3986 percent-encoding, bracket notation for
    nesting, [&] as delimiter, [undefined] members skipped) and yields the
    empty string for anything that is not an object. *)
Definition stringify (obj : value) : string :=
  match obj with
  | VObj props => join "&" (flat_map (fun kv => pairs (fst kv) (snd kv)) props)
  | _ => ""
  end.

End Qs.

(* ================================================================= *)
(** ** Requests handed to the [request] package *)

(** [request(url, handler)] starts one HTTP GET; what the model keeps of it
    is the URL and the client callback [cb] captured by the handler. *)
Record request := { req_url : string; req_cb : value }.

Definition network := list request.

(** Client methods: a completion together with the requests issued. *)
Definition js (A : Type) := network -> completion A * network.

Definition ret {A} (a : A) : js A := fun net => (Return a, net).

Definition throw {A} (e : value) : js A := fun net => (Throw e, net).

Definition bind {A B} (m : js A) (k : A -> js B) : js B :=
  fun net =>
    match m net with
    | (Return a, net') => k a net'
    | (Throw e, net') => (Throw e, net')
    end.

Definition lift {A} (c : completion A) : js A := fun net => (c, net).

Notation "x <~ m ;; k" := (bind m (fun x => k))
  (at level 61, m at next level, right associativity).

(** What the response handler does with a response: it invokes the client
    callback, or an exception escapes from it. *)
Inductive delivery :=
| Calls (cb : value) (args : list value)
| Raises (e : value).

Definition call (f : value) (args : list value) : delivery :=
  match f with
  | VFun _ _ | VMethod _ _ _ => Calls f args
  | _ => Raises (TypeError "cb is not a function")
  end.

(** [a || b] *)
Definition or_else (a b : value) : value := if truthy a then a else b.

(** The i-th formal parameter of a call with the given arguments. *)
Definition arg (i : nat) (args : list value) : value := nth i args VUndefined.

(* ================================================================= *)
(** ** index.js *)

Section Client.

(** [require('./libs/query-validation.json')]: the properties of the schema
    document, one schema object per endpoint name.  The file is not among
    the sources. *)
Variable queryValidation : list (string * value).

(** [JSON.parse] on the text of a response body. *)
Variable JSON_parse : string -> completion value.

Definition requestUrl (endpoint token options : value) : string :=
  let query :=
    "?" ++ (if truthy options then Qs.stringify options else "")
        ++ "&client_id=" ++ to_string token in
  "https://api.behance.net/v2/" ++ to_string endpoint ++ query.

(** The arrow function that [requestHandler] passes to [request]. *)
Definition requestHandler_response (cb : value) (err res data : value) : delivery :=
  let payload := data in
  match get res "statusCode" with
  | Throw e => Raises e
  | Return statusCode =>
      if strict_eq statusCode (VNum (Int 403))
      then call cb [Error "No response from the Behance API"]
      else
        match JSON_parse (to_string data) with
        | Throw e => Raises (Error (to_string e))
        | Return payload => call cb [err; res; payload]
        end
  end.

Definition requestHandler (url : string) (cb : value) : js value :=
  fun net => (Return VUndefined, (net ++ [{| req_url := url; req_cb := cb |}])%list).

Definition compareKeys (obj1 obj2 fn : value) : completion value :=
  keys1 <- Object_keys obj1 ;;
  keys2 <- Object_keys obj2 ;;
  for_loop (length keys1) 0 (fun i =>
    if indexOf keys2 (array_get keys1 i) <=? -1
    then Leave (Throw (Error ("property " ++ to_string (array_get keys1 i)
                                ++ " is not a valid query for " ++ to_string fn)))
    else Leave (Return (VBool true))).

Record behance := { clientId : value }.

(** [new Behance(token)] *)
Definition Behance (args : list value) : completion behance :=
  let token := arg 0 args in
  let this := {| clientId := token |} in
  if strict_eq (clientId this) VUndefined
  then Throw (Error "Please supply an authorization token for new Behance().")
  else Return this.

(** An entry of the endpoint tables; a field that the entry does not
    define reads as [undefined]. *)
Record endpoint := {
  name : value;
  path : value;
  pathprefix : value;
  pathsuffix : value;
  queries : value
}.

Definition option_endpoint (n p : string) : endpoint :=
  {| name := VStr n; path := VStr p; pathprefix := VUndefined;
     pathsuffix := VUndefined; queries := lookup n queryValidation |}.

Definition endpointWithOptionOnly : list endpoint :=
  [ option_endpoint "projects" "projects";
    option_endpoint "creativesToFollow" "creativestofollow";
    option_endpoint "users" "users";
    option_endpoint "teams" "teams";
    option_endpoint "collections" "collections" ].

Definition option_only_assign (def : endpoint) (this : behance) (args : list value) : js value :=
  let opts := arg 0 args in
  let cb := arg 1 args in
  keys <~ lift (Object_keys opts) ;;
  proceed <~ (if (length keys =? 0)%nat then ret true
              else v <~ lift (compareKeys opts (queries def) (name def)) ;;
                   ret (truthy v)) ;;
  if proceed : bool
  then _ <~ requestHandler (requestUrl (path def) (clientId this) opts) cb ;;
       ret VUndefined
  else ret VUndefined.

Definition id_endpoint (n : string) (prefix suffix : value) : endpoint :=
  {| name := VStr n; path := VUndefined; pathprefix := prefix;
     pathsuffix := suffix; queries := VUndefined |}.

(** The last entry of the id-only table: [{ name: 'collection', path:
    'collection' }], with [path] where its siblings have [pathprefix]. *)
Definition collection_endpoint : endpoint :=
  {| name := VStr "collection"; path := VStr "collection";
     pathprefix := VUndefined; pathsuffix := VUndefined;
     queries := VUndefined |}.

Definition endpointWithOnlyAnId : list endpoint :=
  [ id_endpoint "project" (VStr "projects/") VUndefined;
    id_endpoint "user" (VStr "users/") VUndefined;
    id_endpoint "team" (VStr "teams/") VUndefined;
    id_endpoint "userStats" (VStr "users/") (VStr "/stats");
    id_endpoint "userWorkExperience" (VStr "users/") (VStr "/work_experience");
    collection_endpoint ].

(** The concatenation [prefix + id + (suffix ? suffix : '')] of the fields
    of a table entry, which are string literals or absent, with an id that
    is a primitive or converts as one. *)
Definition endpoint_path (def : endpoint) (id : value) : value :=
  add (add (pathprefix def) id)
      (if truthy (pathsuffix def) then pathsuffix def else VStr "").

(** [def.pathprefix + id + (def.pathsuffix ? def.pathsuffix : '')]: the
    first [+] converts the id to a primitive, which runs the id's own
    [valueOf] or [toString] when it is an object and may throw. *)
Definition endpoint_of (def : endpoint) (id : value) : completion value :=
  primitive <- to_primitive id ;;
  Return (endpoint_path def primitive).

Definition id_only_assign (def : endpoint) (this : behance) (args : list value) : js value :=
  let id := arg 0 args in
  let cb := arg 1 args in
  endpoint <~ lift (endpoint_of def id) ;;
  if negb (length args =? 2)%nat
  then throw (Error ("." ++ to_string (name def)
                       ++ " requires both an id and a callback function."))
  else _ <~ requestHandler (requestUrl endpoint (clientId this) VUndefined) cb ;;
       ret VUndefined.

Definition id_options_endpoint (n prefix suffix schema : string) : endpoint :=
  {| name := VStr n; path := VUndefined; pathprefix := VStr prefix;
     pathsuffix := VStr suffix; queries := lookup schema queryValidation |}.

Definition endpointWithIdAndOptions : list endpoint :=
  [ id_options_endpoint "projectComments" "projects/" "/comments" "projectComments";
    id_options_endpoint "userProjects" "users/" "/projects" "userProjects";
    id_options_endpoint "userWips" "users/" "/wips" "userWips";
    id_options_endpoint "teamProjects" "teams/" "/projects" "teamsProjects";
    id_options_endpoint "userAppreciations" "users/" "/appreciations" "userAppreciations";
    id_options_endpoint "userCollections" "users/" "/collections" "userCollections";
    id_options_endpoint "userFollowers" "users/" "/followers" "userFollowers";
    id_options_endpoint "userFollowing" "users/" "/following" "userFollowing";
    id_options_endpoint "collectionProjects" "collections/" "/projects" "collectionProjects" ].

Definition id_and_options_assign (def : endpoint) (this : behance) (args : list value) : js value :=
  let id := arg 0 args in
  let opts := arg 1 args in
  let cb := arg 2 args in
  endpoint <~ lift (endpoint_of def id) ;;
  let newCb := if (length args =? 2)%nat then opts else VUndefined in
  let newOpts := if (length args =? 2)%nat then VObj [] else VUndefined in
  if strict_eq id (VStr "") || (typeof id =? "object")%string
  then throw (Error ("." ++ to_string (name def)
                       ++ " requires at least an id and a callback function."))
  else
    keys <~ lift (Object_keys opts) ;;
    proceed <~ (if (length keys =? 0)%nat then ret true
                else v <~ lift (compareKeys opts (queries def) (name def)) ;;
                     ret (truthy v)) ;;
    if proceed : bool
    then _ <~ requestHandler (requestUrl endpoint (clientId this) (or_else newOpts opts))
                             (or_else newCb cb) ;;
         ret VUndefined
    else ret VUndefined.

(** [Behance.prototype.fields] *)
Definition fields (this : behance) (args : list value) : js value :=
  let cb := arg 0 args in
  _ <~ requestHandler (requestUrl (VStr "fields") (clientId this) VUndefined) cb ;;
  ret VUndefined.

(** [Behance.prototype]: the methods in the order the three [forEach]
    loops and the final assignment install them. *)
Definition method := behance -> list value -> js value.

Definition prototype : list (string * method) :=
  (map (fun def => (to_string (name def), option_only_assign def)) endpointWithOptionOnly
   ++ map (fun def => (to_string (name def), id_only_assign def)) endpointWithOnlyAnId
   ++ map (fun def => (to_string (name def), id_and_options_assign def)) endpointWithIdAndOptions
   ++ [("fields", fields)])%list.

End Client.

Arguments requestHandler_response JSON_parse cb err res data : assert.

(* ================================================================= *)
(** ** Auxiliary definitions for the statements *)

(** [k] is one of the strings of [ks]. *)
Definition mem (k : string) (ks : list string) : bool :=
  existsb (fun y => (y =? k)%string) ks.

(** [k] is a key of the object with properties [schema]. *)
Definition key_in (k : string) (schema : list (string * value)) : bool :=
  mem k (map fst schema).

(** The error thrown by [compareKeys] for the key [k] and the endpoint
    [fn]: the spec's ValidationError. *)
Definition ValidationError (k : string) (fn : value) : value :=
  Error ("property " ++ k ++ " is not a valid query for " ++ to_string fn).

(** The guard of the id-plus-options methods: [id === '' || typeof id ===
    'object']. *)
Definition rejected_id (id : value) : bool :=
  strict_eq id (VStr "") || (typeof id =? "object")%string.

(** The spec's contract for the validator: it returns [true] or fails with
    an error naming a key of the options that the schema lacks, and the
    endpoint. *)
Definition validator_contract (options schema : list (string * value)) (fn : value) : Prop :=
  compareKeys (VObj options) (VObj schema) fn = Return (VBool true)
  \/ exists k, In k (map fst options) /\ key_in k schema = false
               /\ compareKeys (VObj options) (VObj schema) fn = Throw (ValidationError k fn).

(** A stand-in for [libs/query-validation.json] that is used to run the
    methods on concrete calls: the test-suite queries [projects] with [q]
    and [userProjects] with [sort], so both names are permitted there. *)
Definition sample_queryValidation : list (string * value) :=
  [ ("projects", VObj [("q", VStr ""); ("sort", VStr ""); ("time", VStr "")]);
    ("userProjects", VObj [("sort", VStr ""); ("time", VStr "")]) ].

Definition sample_client : behance := {| clientId := VNum (Int 123456789) |}.

Definition sample_callback : value := VFun "function (err, res, data) {}" [].

(** The request that a method hands to [requestHandler]. *)
Definition issued (net : network) (url : string) (cb : value) : completion value * network :=
  (Return VUndefined, (net ++ [{| req_url := url; req_cb := cb |}])%list).

Ltac run_method :=
  unfold option_only_assign, id_only_assign, id_and_options_assign,
    bind, lift, ret, throw, requestHandler, issued, arg;
  cbn [nth length Nat.eqb negb].

(** The reading of C10: in a two-argument call, any enumerable property
    of the callback that the schema does not list makes the call throw a
    validation error without a request. *)
Definition callback_validation_claim
    (def : endpoint) (this : behance) (id cb : value) (net : network) : Prop :=
  forall (keys : list string) (schema : list (string * value)) (k : string),
    Object_keys cb = Return keys ->
    queries def = VObj schema ->
    In k keys ->
    key_in k schema = false ->
    exists k', id_and_options_assign def this [id; cb] net
               = (Throw (ValidationError k' (name def)), net).

(** The two outcomes a call of a client method can have: it throws and
    leaves the request log as it was, or it returns [undefined] after
    handing exactly one request to [request], for a URL under the API
    base that ends with the client's token. *)
Definition throws_or_requests_once (m : method) : Prop :=
  forall (this : behance) (args : list value) (net : network),
    (exists e, m this args net = (Throw e, net))
    \/ (exists (endpoint : value) (query : string) (cb : value),
          m this args net
          = issued net ("https://api.behance.net/v2/" ++ to_string endpoint ++ "?" ++ query
                          ++ "&client_id=" ++ to_string (clientId this)) cb).


(** [typeof v === 'function'] *)
Definition is_function (v : value) : bool := (typeof v =? "function")%string.

(** The suffix that [endpoint_path] appends: [def.pathsuffix ?
    def.pathsuffix : '']. *)
Definition suffix_of (def : endpoint) : string :=
  if truthy (pathsuffix def) then to_string (pathsuffix def) else "".

(** A parser used to run the response handler on concrete responses: it
    knows the empty object and rejects everything else. *)
Definition sample_JSON_parse (text : string) : completion value :=
  if (text =? "{}")%string then Return (VObj [])
  else Throw (VErr "SyntaxError" "Unexpected end of JSON input").

Lemma append_nil_r (s : string) : s ++ "" = s.
Proof. induction s as [|c s IH]; simpl; [reflexivity | now rewrite IH]. Qed.

(* ================================================================= *)
(** ** Conversions *)

(** Only an object can have conversion methods of its own: every other
    value converts as inherited. *)
Lemma to_primitive_not_object (v : value) :
  (typeof v =? "object")%string = false ->
  to_primitive v = Return (inherited_primitive v).
Proof. destruct v; intros H; try discriminate H; reflexivity. Qed.

Lemma to_primitive_throws (v e : value) :
  to_primitive v = Throw e -> exists props, v = VObj props.
Proof. destruct v; intros H; try discriminate H. eauto. Qed.

Lemma try_method_primitive (m p : value) :
  try_method m = Some (Return p) -> is_primitive p = true.
Proof.
  unfold try_method. destruct (call_method m) as [[r|e]|]; try discriminate.
  destruct (is_primitive r) eqn:E; intros H; inversion H; now subst.
Qed.

(** A conversion that succeeds yields a primitive. *)
Lemma to_primitive_is_primitive (v p : value) :
  to_primitive v = Return p -> is_primitive p = true.
Proof.
  destruct v; cbn; intros H; try (inversion H; subst; reflexivity).
  destruct (own_property "valueOf" props) as [m|].
  - destruct (try_method m) as [[r|e]|] eqn:E; try discriminate H.
    + inversion H; subst. now apply try_method_primitive with (m := m).
    + destruct (own_property "toString" props) as [m'|].
      * destruct (try_method m') as [[r|e]|] eqn:E'; try discriminate H.
        inversion H; subst. now apply try_method_primitive with (m := m').
      * inversion H; now subst.
  - destruct (own_property "toString" props) as [m'|].
    + destruct (try_method m') as [[r|e]|] eqn:E'; try discriminate H.
      inversion H; subst. now apply try_method_primitive with (m := m').
    + inversion H; now subst.
Qed.

Lemma inherited_primitive_of_primitive (p : value) :
  is_primitive p = true -> inherited_primitive p = p.
Proof. destruct p; intros H; try discriminate H; reflexivity. Qed.

Lemma endpoint_path_inherited (def : endpoint) (v : value) :
  endpoint_path def (inherited_primitive v) = endpoint_path def v.
Proof. destruct v; reflexivity. Qed.

(** An id that passes the id guard is no object, so its conversion cannot
    fail and the endpoint is the plain concatenation. *)
Lemma endpoint_of_accepted (def : endpoint) (id : value) :
  rejected_id id = false -> endpoint_of def id = Return (endpoint_path def id).
Proof.
  intros H. unfold rejected_id in H. apply orb_false_elim in H. destruct H as [_ H].
  unfold endpoint_of. rewrite (to_primitive_not_object id H). cbn [cbind].
  now rewrite endpoint_path_inherited.
Qed.

Ltac convert_id H := rewrite (endpoint_of_accepted _ _ H); cbn beta iota.

(* ================================================================= *)
(** ** The validator *)

Lemma indexOf_from_range (arr : list string) (x : string) (i : Z) :
  0 <= i -> indexOf_from arr x i = -1 \/ i <= indexOf_from arr x i.
Proof.
  revert i. induction arr as [|y rest IH]; intros i Hi; simpl.
  - now left.
  - destruct (y =? x)%string.
    + right. lia.
    + destruct (IH (i + 1)) as [H|H]; [lia | now left | right; lia].
Qed.

Lemma indexOf_from_mem (arr : list string) (x : string) (i : Z) :
  0 <= i -> (indexOf_from arr x i <=? -1) = negb (mem x arr).
Proof.
  revert i. induction arr as [|y rest IH]; intros i Hi; simpl.
  - reflexivity.
  - destruct (y =? x)%string; simpl.
    + apply Z.leb_gt. lia.
    + apply IH. lia.
Qed.

Lemma indexOf_absent (arr : list string) (x : string) :
  (indexOf arr (VStr x) <=? -1) = negb (mem x arr).
Proof. unfold indexOf. apply indexOf_from_mem. lia. Qed.

(** With at least one key, the loop body runs once, on the first key. *)
Lemma compareKeys_keys_cons (obj1 obj2 fn : value) (k : string) (rest keys2 : list string) :
  Object_keys obj1 = Return (k :: rest) ->
  Object_keys obj2 = Return keys2 ->
  compareKeys obj1 obj2 fn =
    if mem k keys2 then Return (VBool true) else Throw (ValidationError k fn).
Proof.
  intros H1 H2. unfold compareKeys. rewrite H1, H2.
  cbn [cbind length for_loop array_get nth_error].
  rewrite indexOf_absent. cbn [to_string]. now destruct (mem k keys2).
Qed.

(** Without keys, the loop body never runs and nothing is returned. *)
Lemma compareKeys_keys_nil (obj1 obj2 fn : value) (keys2 : list string) :
  Object_keys obj1 = Return [] ->
  Object_keys obj2 = Return keys2 ->
  compareKeys obj1 obj2 fn = Return VUndefined.
Proof. intros H1 H2. unfold compareKeys. now rewrite H1, H2. Qed.

(** C1: on a non-empty options object the validator looks at the first key
    in enumeration order only: it throws when that key is absent from the
    schema and returns [true] as soon as it is present, so the outcome is
    the one for the options object cut down to its first property. *)
Theorem compareKeys_first_key_only :
  forall (k : string) (v : value) (rest schema : list (string * value)) (fn : value),
    compareKeys (VObj ((k, v) :: rest)) (VObj schema) fn
      = (if key_in k schema then Return (VBool true)
         else Throw (ValidationError k fn))
    /\ compareKeys (VObj ((k, v) :: rest)) (VObj schema) fn
      = compareKeys (VObj [(k, v)]) (VObj schema) fn.
Proof.
  intros k v rest schema fn.
  assert (E : forall r, compareKeys (VObj ((k, v) :: r)) (VObj schema) fn
                        = if key_in k schema then Return (VBool true)
                          else Throw (ValidationError k fn)).
  { intro r. now apply compareKeys_keys_cons with (rest := map fst r). }
  split; [apply E | now rewrite !E].
Qed.

(** C8, as stated, fails: on the empty options object the validator
    returns [undefined], neither [true] nor an error. *)
Lemma compareKeys_empty_options_undefined :
  compareKeys (VObj []) (VObj [("q", VStr ""); ("sort", VStr "")]) (VStr "projects")
    = Return VUndefined
  /\ ~ validator_contract [] [("q", VStr ""); ("sort", VStr "")] (VStr "projects").
Proof.
  split; [reflexivity|].
  intros [H | [k [_ [_ H]]]]; discriminate H.
Qed.

(** C8, amended: on every non-empty options object the validator returns
    [true] or throws the error that names the offending key and the
    endpoint; on the empty options object it returns [undefined]. *)
Theorem compareKeys_contract_nonempty :
  forall (schema : list (string * value)) (fn : value),
    (forall k v rest, validator_contract ((k, v) :: rest) schema fn)
    /\ compareKeys (VObj []) (VObj schema) fn = Return VUndefined.
Proof.
  intros schema fn. split.
  - intros k v rest. unfold validator_contract.
    destruct (compareKeys_first_key_only k v rest schema fn) as [E _].
    rewrite E. destruct (key_in k schema) eqn:Hk.
    + now left.
    + right. exists k. simpl. auto.
  - now apply compareKeys_keys_nil with (keys2 := map fst schema).
Qed.

(* ================================================================= *)
(** ** The URL builder *)

(** C4: the URL is the base, the endpoint path, [?], the serialized
    options (nothing when the options are absent or falsy), and
    [&client_id=<token>]; absent and empty options both give
    [?&client_id=<token>]; and the test-suite's example holds. *)
Theorem requestUrl_format :
  (forall (endpointPath : string) (token options : value),
      requestUrl (VStr endpointPath) token options
        = "https://api.behance.net/v2/" ++ endpointPath ++ "?"
            ++ (if truthy options then Qs.stringify options else "")
            ++ "&client_id=" ++ to_string token)
  /\ (forall (endpointPath : string) (token : value),
         requestUrl (VStr endpointPath) token VUndefined
           = "https://api.behance.net/v2/" ++ endpointPath
               ++ "?&client_id=" ++ to_string token)
  /\ (forall (endpointPath : string) (token : value),
         requestUrl (VStr endpointPath) token (VObj [])
           = "https://api.behance.net/v2/" ++ endpointPath
               ++ "?&client_id=" ++ to_string token)
  /\ requestUrl (VStr "projects") (VNum (Int 123))
       (VObj [("q", VStr "motorcycle"); ("time", VStr "month")])
     = "https://api.behance.net/v2/projects?q=motorcycle&time=month&client_id=123".
Proof.
  repeat split; intros; reflexivity.
Qed.

(* ================================================================= *)
(** ** The generated methods *)

(** Options-only family: a first key that the schema knows lets the call
    through, whatever keys follow. *)
Lemma option_only_first_key_accepted
    (def : endpoint) (this : behance) (opts cb : value) (net : network)
    (k : string) (rest : list string) (schema : list (string * value)) :
  Object_keys opts = Return (k :: rest) ->
  queries def = VObj schema ->
  key_in k schema = true ->
  option_only_assign def this [opts; cb] net
    = issued net (requestUrl (path def) (clientId this) opts) cb.
Proof.
  intros Hk Hq Hin. run_method. rewrite Hk. cbn [length Nat.eqb].
  rewrite (compareKeys_keys_cons opts (queries def) (name def) k rest (map fst schema) Hk)
    by (now rewrite Hq).
  unfold key_in in Hin. now rewrite Hin.
Qed.

(** Id-plus-options family, three arguments: the same. *)
Lemma id_and_options_first_key_accepted
    (def : endpoint) (this : behance) (id opts cb : value) (net : network)
    (k : string) (rest : list string) (schema : list (string * value)) :
  rejected_id id = false ->
  Object_keys opts = Return (k :: rest) ->
  queries def = VObj schema ->
  key_in k schema = true ->
  id_and_options_assign def this [id; opts; cb] net
    = issued net (requestUrl (endpoint_path def id) (clientId this) opts) cb.
Proof.
  intros Hid Hk Hq Hin. run_method. convert_id Hid. unfold rejected_id in Hid. rewrite Hid.
  rewrite Hk. cbn [length Nat.eqb].
  rewrite (compareKeys_keys_cons opts (queries def) (name def) k rest (map fst schema) Hk)
    by (now rewrite Hq).
  unfold key_in in Hin. now rewrite Hin.
Qed.

(** Id-plus-options family, three arguments, empty options object. *)
Lemma id_and_options_empty_options
    (def : endpoint) (this : behance) (id cb : value) (net : network) :
  rejected_id id = false ->
  id_and_options_assign def this [id; VObj []; cb] net
    = issued net (requestUrl (endpoint_path def id) (clientId this) (VObj [])) cb.
Proof.
  intros Hid. run_method. convert_id Hid. unfold rejected_id in Hid. now rewrite Hid.
Qed.

(** Id-plus-options family, two arguments: the keys that are validated
    are those of the second argument itself. *)
Lemma id_and_options_two_arguments_rejected
    (def : endpoint) (this : behance) (id cb : value) (net : network)
    (k : string) (rest : list string) (schema : list (string * value)) :
  rejected_id id = false ->
  Object_keys cb = Return (k :: rest) ->
  queries def = VObj schema ->
  key_in k schema = false ->
  id_and_options_assign def this [id; cb] net
    = (Throw (ValidationError k (name def)), net).
Proof.
  intros Hid Hk Hq Hin. run_method. convert_id Hid. unfold rejected_id in Hid. rewrite Hid.
  rewrite Hk. cbn [length Nat.eqb].
  rewrite (compareKeys_keys_cons cb (queries def) (name def) k rest (map fst schema) Hk)
    by (now rewrite Hq).
  unfold key_in in Hin. now rewrite Hin.
Qed.

Lemma id_and_options_two_arguments_accepted
    (def : endpoint) (this : behance) (id cb : value) (net : network)
    (k : string) (rest : list string) (schema : list (string * value)) :
  rejected_id id = false ->
  truthy cb = true ->
  Object_keys cb = Return (k :: rest) ->
  queries def = VObj schema ->
  key_in k schema = true ->
  id_and_options_assign def this [id; cb] net
    = issued net (requestUrl (endpoint_path def id) (clientId this) (VObj [])) cb.
Proof.
  intros Hid Ht Hk Hq Hin. run_method. convert_id Hid. unfold rejected_id in Hid. rewrite Hid.
  rewrite Hk. cbn [length Nat.eqb].
  rewrite (compareKeys_keys_cons cb (queries def) (name def) k rest (map fst schema) Hk)
    by (now rewrite Hq).
  unfold key_in in Hin. rewrite Hin. unfold or_else. now rewrite Ht.
Qed.

(** C2, at a call that the claim says must fail: [q] is a permitted key of
    [projects] and [sort] one of [userProjects], [bogus] is permitted by
    neither, and yet [projects({q, bogus}, cb)] and
    [userProjects('edmendoza3', {sort, bogus}, cb)] both issue their
    request, with [bogus] in the query string. *)
Theorem unlisted_later_key_is_requested :
  forall (qv projects_schema userProjects_schema : list (string * value))
         (this : behance) (cb : value) (net : network),
    lookup "projects" qv = VObj projects_schema ->
    lookup "userProjects" qv = VObj userProjects_schema ->
    key_in "q" projects_schema = true ->
    key_in "sort" userProjects_schema = true ->
    key_in "bogus" projects_schema = false ->
    key_in "bogus" userProjects_schema = false ->
    option_only_assign (option_endpoint qv "projects" "projects") this
        [VObj [("q", VStr "motorcycle"); ("bogus", VStr "x")]; cb] net
      = issued net ("https://api.behance.net/v2/projects?q=motorcycle&bogus=x&client_id="
                      ++ to_string (clientId this)) cb
    /\ id_and_options_assign
         (id_options_endpoint qv "userProjects" "users/" "/projects" "userProjects") this
         [VStr "edmendoza3"; VObj [("sort", VStr "appreciations"); ("bogus", VStr "x")]; cb] net
      = issued net ("https://api.behance.net/v2/users/edmendoza3/projects?sort=appreciations&bogus=x&client_id="
                      ++ to_string (clientId this)) cb.
Proof.
  intros qv ps us this cb net Hp Hu Hq Hs _ _. split.
  - now rewrite (option_only_first_key_accepted _ this _ cb net "q" ["bogus"] ps).
  - now rewrite (id_and_options_first_key_accepted _ this _ _ cb net "sort" ["bogus"] us).
Qed.

Lemma unlisted_later_key_is_requested_witness :
  option_only_assign (option_endpoint sample_queryValidation "projects" "projects")
      sample_client
      [VObj [("q", VStr "motorcycle"); ("bogus", VStr "x")]; sample_callback] []
    = issued [] "https://api.behance.net/v2/projects?q=motorcycle&bogus=x&client_id=123456789"
        sample_callback
  /\ id_and_options_assign
       (id_options_endpoint sample_queryValidation "userProjects" "users/" "/projects"
          "userProjects")
       sample_client
       [VStr "edmendoza3"; VObj [("sort", VStr "appreciations"); ("bogus", VStr "x")];
        sample_callback] []
    = issued [] "https://api.behance.net/v2/users/edmendoza3/projects?sort=appreciations&bogus=x&client_id=123456789"
        sample_callback.
Proof.
  apply (unlisted_later_key_is_requested sample_queryValidation
           [("q", VStr ""); ("sort", VStr ""); ("time", VStr "")]
           [("sort", VStr ""); ("time", VStr "")]
           sample_client sample_callback []); reflexivity.
Defined.

(** X18: with a callback that has no enumerable property of its own, the
    two-argument call and the three-argument call with [{}] coincide, for
    every endpoint, id and request log. *)
Lemma two_argument_shortcut_plain_callback
    (def : endpoint) (this : behance) (id : value) (src : string) (net : network) :
  id_and_options_assign def this [id; VFun src []] net
    = id_and_options_assign def this [id; VObj []; VFun src []] net.
Proof.
  run_method. now destruct (strict_eq id (VStr "") || (typeof id =? "object")%string).
Qed.

(** C3, at a call where the two forms differ: when the callback carries an
    enumerable property that the schema does not list, the two-argument
    call throws the validation error and issues nothing, while the
    three-argument call with [{}] issues the request. *)
Theorem two_argument_shortcut_differs :
  forall (qv : list (string * value)) (def : endpoint) (this : behance) (id : value)
         (src k : string) (v : value) (rest schema : list (string * value))
         (net : network),
    In def (endpointWithIdAndOptions qv) ->
    queries def = VObj schema ->
    key_in k schema = false ->
    rejected_id id = false ->
    id_and_options_assign def this [id; VFun src ((k, v) :: rest)] net
      = (Throw (ValidationError k (name def)), net)
    /\ id_and_options_assign def this [id; VObj []; VFun src ((k, v) :: rest)] net
      = issued net (requestUrl (endpoint_path def id) (clientId this) (VObj []))
          (VFun src ((k, v) :: rest)).
Proof.
  intros qv def this id src k v rest schema net _ Hq Hk Hid. split.
  - now apply id_and_options_two_arguments_rejected with (rest := map fst rest) (schema := schema).
  - now apply id_and_options_empty_options.
Qed.

Lemma two_argument_shortcut_differs_witness :
  id_and_options_assign
      (id_options_endpoint sample_queryValidation "userProjects" "users/" "/projects"
         "userProjects")
      sample_client
      [VStr "edmendoza3"; VFun "function cb() {}" [("calls", VNum (Int 0))]] []
    = (Throw (Error "property calls is not a valid query for userProjects"), [])
  /\ id_and_options_assign
       (id_options_endpoint sample_queryValidation "userProjects" "users/" "/projects"
          "userProjects")
       sample_client
       [VStr "edmendoza3"; VObj []; VFun "function cb() {}" [("calls", VNum (Int 0))]] []
    = issued [] "https://api.behance.net/v2/users/edmendoza3/projects?&client_id=123456789"
        (VFun "function cb() {}" [("calls", VNum (Int 0))]).
Proof.
  apply (two_argument_shortcut_differs sample_queryValidation
           (id_options_endpoint sample_queryValidation "userProjects" "users/" "/projects"
              "userProjects")
           sample_client (VStr "edmendoza3") "function cb() {}" "calls" (VNum (Int 0)) []
           [("sort", VStr ""); ("time", VStr "")] []).
  - simpl. auto.
  - reflexivity.
  - reflexivity.
  - reflexivity.
Defined.

(** C10, as stated, fails: the callback below has the enumerable property
    [bogus], which the schema of [userProjects] does not list, but its
    first property [sort] is listed, and the two-argument call issues the
    request. *)
Lemma callback_later_property_not_validated :
  let def := id_options_endpoint sample_queryValidation "userProjects" "users/" "/projects"
               "userProjects" in
  let cb := VFun "function cb() {}" [("sort", VStr "appreciations"); ("bogus", VStr "x")] in
  In def (endpointWithIdAndOptions sample_queryValidation)
  /\ id_and_options_assign def sample_client [VStr "edmendoza3"; cb] []
     = issued [] "https://api.behance.net/v2/users/edmendoza3/projects?&client_id=123456789" cb
  /\ ~ callback_validation_claim def sample_client (VStr "edmendoza3") cb [].
Proof.
  cbv zeta. split; [simpl; auto | split; [reflexivity|]].
  intro H.
  destruct (H ["sort"; "bogus"] [("sort", VStr ""); ("time", VStr "")] "bogus")
    as [k' Hk']; try reflexivity.
  - simpl. auto.
  - discriminate Hk'.
Qed.

(** C10, amended: in a two-argument call whose id passes the id guard, the
    keys that are validated are those of the second argument, the callback:
    when its first enumerable property is not in the endpoint's schema, the
    call throws the validation error for that property and issues no
    request. *)
Theorem two_argument_call_validates_callback :
  forall (qv : list (string * value)) (def : endpoint) (this : behance) (id cb : value)
         (k : string) (rest : list string) (schema : list (string * value))
         (net : network),
    In def (endpointWithIdAndOptions qv) ->
    rejected_id id = false ->
    Object_keys cb = Return (k :: rest) ->
    queries def = VObj schema ->
    key_in k schema = false ->
    id_and_options_assign def this [id; cb] net
      = (Throw (ValidationError k (name def)), net).
Proof.
  intros qv def this id cb k rest schema net _ Hid Hk Hq Hin.
  now apply id_and_options_two_arguments_rejected with (rest := rest) (schema := schema).
Qed.

Lemma two_argument_call_validates_callback_witness :
  id_and_options_assign
      (id_options_endpoint sample_queryValidation "userProjects" "users/" "/projects"
         "userProjects")
      sample_client
      [VStr "edmendoza3"; VFun "function cb() {}" [("bogus", VStr "x"); ("sort", VStr "")]]
      []
    = (Throw (Error "property bogus is not a valid query for userProjects"), []).
Proof.
  apply (two_argument_call_validates_callback sample_queryValidation
           (id_options_endpoint sample_queryValidation "userProjects" "users/" "/projects"
              "userProjects")
           sample_client (VStr "edmendoza3")
           (VFun "function cb() {}" [("bogus", VStr "x"); ("sort", VStr "")])
           "bogus" ["sort"] [("sort", VStr ""); ("time", VStr "")] []).
  - simpl. auto.
  - reflexivity.
  - reflexivity.
  - reflexivity.
  - reflexivity.
Defined.







(** C9, as stated, fails for an id that is a number: [undefined + 5] is
    [NaN], so the path segment is [NaN] and not [undefined5]. *)
Lemma collection_numeric_id_requests_NaN :
  id_only_assign collection_endpoint sample_client [VNum (Int 5); sample_callback] []
    = issued [] "https://api.behance.net/v2/NaN?&client_id=123456789" sample_callback
  /\ id_only_assign collection_endpoint sample_client [VNum (Int 5); sample_callback] []
     <> issued []
          ("https://api.behance.net/v2/undefined" ++ to_string (VNum (Int 5))
             ++ "?&client_id=" ++ to_string (clientId sample_client))
          sample_callback.
Proof.
  split; [reflexivity | intro H; discriminate H].
Qed.

(** C9, amended: the [collection] entry of the id-only table defines [path]
    and no [pathprefix]; called with an id and a callback, its method
    converts the id to a primitive and issues the request to
    [https://api.behance.net/v2/undefined<id>?&client_id=<token>] when that
    primitive is a string (the id itself, or what an object or function id
    converts to), and to [.../v2/NaN?&client_id=<token>] when it is a
    number, a boolean, [null] or [undefined]; when the conversion of the id
    throws, the call throws the same and issues nothing. *)
Theorem collection_requests_converted_id :
  forall (this : behance) (id cb : value) (net : network),
    In collection_endpoint endpointWithOnlyAnId
    /\ name collection_endpoint = VStr "collection"
    /\ path collection_endpoint = VStr "collection"
    /\ pathprefix collection_endpoint = VUndefined
    /\ id_only_assign collection_endpoint this [id; cb] net
       = match to_primitive id with
         | Return primitive =>
             issued net
               ("https://api.behance.net/v2/"
                  ++ (if is_string primitive then "undefined" ++ to_string primitive
                      else "NaN")
                  ++ "?&client_id=" ++ to_string (clientId this))
               cb
         | Throw e => (Throw e, net)
         end.
Proof.
  intros this id cb net.
  repeat split; [simpl; tauto|].
  run_method. unfold endpoint_of.
  destruct (to_primitive id) as [p|e] eqn:Hp; cbn [cbind]; [|reflexivity].
  apply to_primitive_is_primitive in Hp.
  unfold requestUrl, endpoint_path, collection_endpoint; cbn [pathprefix pathsuffix truthy].
  destruct p as [| |[]|[z|]|s|props|src props|n m|src t r]; try discriminate Hp; cbn;
    rewrite ?append_nil_r; reflexivity.
Qed.

(* ================================================================= *)
(** ** The response handler *)

(** C5, at a transport failure: [request] then calls the handler with the
    error alone, so [res] is [undefined]; reading [res.statusCode] throws a
    [TypeError] out of the handler and the client callback is not called. *)
Theorem transport_error_not_delivered :
  forall (JSON_parse : string -> completion value) (cb err : value),
    requestHandler_response JSON_parse cb err VUndefined VUndefined
      = Raises (TypeError "Cannot read property 'statusCode' of undefined").
Proof. reflexivity. Qed.

(** X15: with a response that is not forbidden and whose body parses, the
    callback receives the transport error slot as it came, the response
    and the parsed payload. *)
Lemma response_delivered
    (JSON_parse : string -> completion value) (src : string)
    (cbprops props : list (string * value)) (err data payload : value) :
  strict_eq (lookup "statusCode" props) (VNum (Int 403)) = false ->
  JSON_parse (to_string data) = Return payload ->
  requestHandler_response JSON_parse (VFun src cbprops) err (VObj props) data
    = Calls (VFun src cbprops) [err; VObj props; payload].
Proof.
  intros Hs Hp. unfold requestHandler_response. cbn [get]. now rewrite Hs, Hp.
Qed.

(** X14: a forbidden response is reported through the callback's error
    slot and nothing else is passed: the body is not parsed and whatever
    came in the transport error slot is dropped. *)
Lemma forbidden_delivered
    (JSON_parse : string -> completion value) (src : string)
    (cbprops props : list (string * value)) (err data : value) :
  lookup "statusCode" props = VNum (Int 403) ->
  requestHandler_response JSON_parse (VFun src cbprops) err (VObj props) data
    = Calls (VFun src cbprops) [Error "No response from the Behance API"].
Proof.
  intros Hs. unfold requestHandler_response. cbn [get]. now rewrite Hs.
Qed.

(* ================================================================= *)
(** ** The cases of the test-suite *)

Example test_compareKeys_valid :
  compareKeys (VObj [("sort", VStr "")]) (VObj [("q", VStr ""); ("sort", VStr "")])
    (VStr "Test Function")
  = Return (VBool true).
Proof. reflexivity. Qed.

Example test_compareKeys_invalid :
  compareKeys (VObj [("q", VStr "")]) (VObj [("sort", VStr "")]) (VStr "Test Function")
  = Throw (Error "property q is not a valid query for Test Function").
Proof. reflexivity. Qed.

Example test_new_without_key :
  Behance [] = Throw (Error "Please supply an authorization token for new Behance().").
Proof. reflexivity. Qed.

Example test_fields :
  fields sample_client [sample_callback] []
  = issued [] "https://api.behance.net/v2/fields?&client_id=123456789" sample_callback.
Proof. reflexivity. Qed.

Example test_projects :
  option_only_assign (option_endpoint sample_queryValidation "projects" "projects")
    sample_client [VObj [("q", VStr "motorcycle")]; sample_callback] []
  = issued [] "https://api.behance.net/v2/projects?q=motorcycle&client_id=123456789"
      sample_callback.
Proof. reflexivity. Qed.

Example test_project :
  id_only_assign (id_endpoint "project" (VStr "projects/") VUndefined) sample_client
    [VStr "4889175"; sample_callback] []
  = issued [] "https://api.behance.net/v2/projects/4889175?&client_id=123456789"
      sample_callback.
Proof. reflexivity. Qed.

Example test_userProjects :
  id_and_options_assign
    (id_options_endpoint sample_queryValidation "userProjects" "users/" "/projects"
       "userProjects")
    sample_client
    [VStr "edmendoza3"; VObj [("sort", VStr "appreciations")]; sample_callback] []
  = issued [] "https://api.behance.net/v2/users/edmendoza3/projects?sort=appreciations&client_id=123456789"
      sample_callback.
Proof. reflexivity. Qed.

Example test_nested_options :
  Qs.stringify (VObj [("a", VObj [("b", VStr "c d")]); ("skip", VUndefined);
                      ("n", VNum (Int 12)); ("z", VNull)])
  = "a%5Bb%5D=c%20d&n=12&z=".
Proof. reflexivity. Qed.

(* ================================================================= *)
(** ** Further properties of the client *)

Lemma append_assoc (a b c : string) : (a ++ b) ++ c = a ++ b ++ c.
Proof. induction a as [|x a IH]; simpl; [reflexivity | now rewrite IH]. Qed.

Lemma to_string_inherited_primitive (v : value) :
  to_string (inherited_primitive v) = to_string v.
Proof. destruct v; reflexivity. Qed.

(** [+] with a string on the left concatenates the string form of the
    right operand. *)
Lemma add_string_l (p : string) (v : value) : add (VStr p) v = VStr (p ++ to_string v).
Proof. unfold add. cbn. now rewrite to_string_inherited_primitive. Qed.

(** With a string prefix, the endpoint is prefix, id and suffix in a row. *)
Lemma endpoint_path_string_prefix (def : endpoint) (p : string) (id : value) :
  pathprefix def = VStr p ->
  is_string (pathsuffix def) || negb (truthy (pathsuffix def)) = true ->
  endpoint_path def id = VStr (p ++ to_string id ++ suffix_of def).
Proof.
  intros Hp Hs. unfold endpoint_path, suffix_of. rewrite Hp, add_string_l.
  destruct (truthy (pathsuffix def)) eqn:Ht.
  - destruct (pathsuffix def); try discriminate Hs.
    now rewrite add_string_l, append_assoc.
  - now rewrite add_string_l, append_assoc.
Qed.

(** On a non-empty key list the validator returns [true] or throws. *)
Lemma compareKeys_nonempty_outcome (obj1 obj2 fn : value) (k : string) (rest : list string) :
  Object_keys obj1 = Return (k :: rest) ->
  compareKeys obj1 obj2 fn = Return (VBool true)
  \/ exists e, compareKeys obj1 obj2 fn = Throw e.
Proof.
  intros H1. destruct (Object_keys obj2) as [keys2|e] eqn:H2.
  - rewrite (compareKeys_keys_cons obj1 obj2 fn k rest keys2 H1 H2).
    destruct (mem k keys2); [now left | right; eauto].
  - right. exists e. unfold compareKeys. now rewrite H1, H2.
Qed.

Lemma requestUrl_shape (endpoint token options : value) :
  requestUrl endpoint token options
  = "https://api.behance.net/v2/" ++ to_string endpoint ++ "?"
      ++ (if truthy options then Qs.stringify options else "")
      ++ "&client_id=" ++ to_string token.
Proof. reflexivity. Qed.

Lemma option_only_throws_or_requests_once (def : endpoint) :
  throws_or_requests_once (option_only_assign def).
Proof.
  intros this args net. run_method.
  destruct (Object_keys (nth 0 args VUndefined)) as [[|k rest]|e] eqn:Hk.
  - right. cbn [length Nat.eqb]. rewrite requestUrl_shape. eauto.
  - cbn [length Nat.eqb].
    destruct (compareKeys_nonempty_outcome _ (queries def) (name def) k rest Hk)
      as [E | [e E]]; rewrite E.
    + right. cbn [truthy]. rewrite requestUrl_shape. eauto.
    + left. eauto.
  - left. eauto.
Qed.

Lemma id_only_throws_or_requests_once (def : endpoint) :
  throws_or_requests_once (id_only_assign def).
Proof.
  intros this args net. run_method.
  destruct (endpoint_of def (nth 0 args VUndefined)) as [endpoint|e];
    [|left; eauto].
  destruct (length args =? 2)%nat; cbn [negb].
  - right. rewrite requestUrl_shape. eauto.
  - left. eauto.
Qed.

Lemma id_and_options_throws_or_requests_once (def : endpoint) :
  throws_or_requests_once (id_and_options_assign def).
Proof.
  intros this args net. run_method.
  destruct (endpoint_of def (nth 0 args VUndefined)) as [endpoint|e];
    [|left; eauto].
  destruct (strict_eq (nth 0 args VUndefined) (VStr "")
            || (typeof (nth 0 args VUndefined) =? "object")%string).
  { left. eauto. }
  destruct (Object_keys (nth 1 args VUndefined)) as [[|k rest]|e] eqn:Hk.
  - right. cbn [length Nat.eqb]. rewrite requestUrl_shape. eauto.
  - cbn [length Nat.eqb].
    destruct (compareKeys_nonempty_outcome _ (queries def) (name def) k rest Hk)
      as [E | [e E]]; rewrite E.
    + right. cbn [truthy]. rewrite requestUrl_shape. eauto.
    + left. eauto.
  - left. eauto.
Qed.

Lemma fields_throws_or_requests_once : throws_or_requests_once fields.
Proof.
  intros this args net. right. unfold fields. run_method.
  rewrite requestUrl_shape. eauto.
Qed.

(** X1: construction fails exactly when the token is [undefined] (absent
    or passed as such); every other token, [null], [''] and [0] included,
    is stored unchanged as the client id. *)
Theorem Behance_rejects_only_undefined_token :
  forall (args : list value),
    Behance args
    = match arg 0 args with
      | VUndefined =>
          Throw (Error "Please supply an authorization token for new Behance().")
      | token => Return {| clientId := token |}
      end.
Proof.
  intros args. unfold Behance. cbn [clientId].
  destruct (arg 0 args) as [| |b|[z|]|s|props|src props|n m|src t r]; reflexivity.
Qed.

(** X2: whatever its arguments, a method installed on the prototype either
    throws with the request log untouched, or returns [undefined] after
    handing exactly one request to [request], whose URL lies under the API
    base and ends with the client id; it never returns without a request
    and never issues a request before throwing. *)
Theorem prototype_methods_throw_or_request_once :
  forall (qv : list (string * value)) (n : string) (m : method),
    In (n, m) (prototype qv) -> throws_or_requests_once m.
Proof.
  intros qv n m H. unfold prototype in H.
  repeat (apply in_app_or in H; destruct H as [H|H]).
  - apply in_map_iff in H. destruct H as [def [E _]]. inversion E; subst.
    apply option_only_throws_or_requests_once.
  - apply in_map_iff in H. destruct H as [def [E _]]. inversion E; subst.
    apply id_only_throws_or_requests_once.
  - apply in_map_iff in H. destruct H as [def [E _]]. inversion E; subst.
    apply id_and_options_throws_or_requests_once.
  - destruct H as [E|[]]. inversion E; subst. apply fields_throws_or_requests_once.
Qed.

Lemma prototype_methods_throw_or_request_once_witness :
  throws_or_requests_once
    (option_only_assign (option_endpoint sample_queryValidation "projects" "projects")).
Proof.
  apply (prototype_methods_throw_or_request_once sample_queryValidation "projects").
  simpl. left. reflexivity.
Defined.

(** X3: for an options-only method whose schema is an object, a call with
    a non-empty options object is decided by the first key alone: when the
    schema lists it the request goes out with all the options serialized,
    otherwise the call throws the validation error for that key and issues
    nothing. *)
Theorem option_only_decided_by_first_key :
  forall (def : endpoint) (this : behance) (k : string) (v cb : value)
         (rest schema : list (string * value)) (net : network),
    queries def = VObj schema ->
    option_only_assign def this [VObj ((k, v) :: rest); cb] net
    = if key_in k schema
      then issued net ("https://api.behance.net/v2/" ++ to_string (path def) ++ "?"
                         ++ Qs.stringify (VObj ((k, v) :: rest))
                         ++ "&client_id=" ++ to_string (clientId this)) cb
      else (Throw (ValidationError k (name def)), net).
Proof.
  intros def this k v cb rest schema net Hq.
  destruct (key_in k schema) eqn:Hin.
  - now rewrite (option_only_first_key_accepted def this _ cb net k (map fst rest) schema).
  - run_method. cbn [Object_keys map fst length Nat.eqb].
    rewrite (compareKeys_keys_cons (VObj ((k, v) :: rest)) (queries def) (name def)
               k (map fst rest) (map fst schema)) by (now rewrite ?Hq).
    unfold key_in in Hin. now rewrite Hin.
Qed.

Lemma option_only_decided_by_first_key_witness :
  option_only_assign (option_endpoint sample_queryValidation "projects" "projects")
    sample_client [VObj [("colour", VStr "red"); ("q", VStr "x")]; sample_callback] []
  = (Throw (Error "property colour is not a valid query for projects"), []).
Proof.
  apply (option_only_decided_by_first_key
           (option_endpoint sample_queryValidation "projects" "projects")
           sample_client "colour" (VStr "red") sample_callback [("q", VStr "x")]
           [("q", VStr ""); ("sort", VStr ""); ("time", VStr "")] []).
  reflexivity.
Defined.

(** X4: for an id-plus-options method of the table called with three
    arguments, an id that passes the guard and a non-empty options object,
    the first key decides as well: the request goes to
    [<prefix><id><suffix>?<options>&client_id=<token>] when the schema
    lists that key, and the call throws the validation error for it
    otherwise. *)
Theorem id_and_options_decided_by_first_key :
  forall (qv : list (string * value)) (def : endpoint) (this : behance)
         (id : value) (k : string) (v cb : value)
         (rest schema : list (string * value)) (net : network),
    In def (endpointWithIdAndOptions qv) ->
    rejected_id id = false ->
    queries def = VObj schema ->
    id_and_options_assign def this [id; VObj ((k, v) :: rest); cb] net
    = if key_in k schema
      then issued net ("https://api.behance.net/v2/" ++ to_string (pathprefix def)
                         ++ to_string id ++ to_string (pathsuffix def) ++ "?"
                         ++ Qs.stringify (VObj ((k, v) :: rest))
                         ++ "&client_id=" ++ to_string (clientId this)) cb
      else (Throw (ValidationError k (name def)), net).
Proof.
  intros qv def this id k v cb rest schema net Hdef Hid Hq.
  assert (Hpath : endpoint_path def id
                  = VStr (to_string (pathprefix def) ++ to_string id
                            ++ to_string (pathsuffix def))).
  { simpl in Hdef.
    repeat (destruct Hdef as [<-|Hdef];
            [apply endpoint_path_string_prefix; reflexivity|]).
    destruct Hdef. }
  destruct (key_in k schema) eqn:Hin.
  - rewrite (id_and_options_first_key_accepted def this id _ cb net k (map fst rest) schema)
      by easy.
    rewrite Hpath, requestUrl_shape. cbn [to_string truthy].
    now rewrite !append_assoc.
  - run_method. convert_id Hid. unfold rejected_id in Hid. rewrite Hid.
    cbn [Object_keys map fst length Nat.eqb].
    rewrite (compareKeys_keys_cons (VObj ((k, v) :: rest)) (queries def) (name def)
               k (map fst rest) (map fst schema)) by (now rewrite ?Hq).
    unfold key_in in Hin. now rewrite Hin.
Qed.

Lemma id_and_options_decided_by_first_key_witness :
  id_and_options_assign
    (id_options_endpoint sample_queryValidation "userProjects" "users/" "/projects"
       "userProjects")
    sample_client
    [VNum (Int 42); VObj [("time", VStr "week"); ("page", VNum (Int 2))]; sample_callback] []
  = issued [] "https://api.behance.net/v2/users/42/projects?time=week&page=2&client_id=123456789"
      sample_callback.
Proof.
  apply (id_and_options_decided_by_first_key sample_queryValidation
           (id_options_endpoint sample_queryValidation "userProjects" "users/" "/projects"
              "userProjects")
           sample_client (VNum (Int 42)) "time" (VStr "week") sample_callback
           [("page", VNum (Int 2))] [("sort", VStr ""); ("time", VStr "")] []).
  - simpl. auto.
  - reflexivity.
  - reflexivity.
Defined.

(** X5: options without any enumerable key skip the validator altogether:
    the request goes out whatever the endpoint's schema is, also when the
    schema document has no entry for the endpoint. *)
Theorem empty_options_skip_validation :
  forall (def : endpoint) (this : behance) (id opts cb : value) (net : network),
    Object_keys opts = Return [] ->
    rejected_id id = false ->
    option_only_assign def this [opts; cb] net
      = issued net (requestUrl (path def) (clientId this) opts) cb
    /\ id_and_options_assign def this [id; opts; cb] net
      = issued net (requestUrl (endpoint_path def id) (clientId this) opts) cb.
Proof.
  intros def this id opts cb net Hk Hid. split; run_method.
  - now rewrite Hk.
  - convert_id Hid. unfold rejected_id in Hid. now rewrite Hid, Hk.
Qed.

Lemma empty_options_skip_validation_witness :
  option_only_assign (option_endpoint sample_queryValidation "teams" "teams")
    sample_client [VObj []; sample_callback] []
    = issued [] "https://api.behance.net/v2/teams?&client_id=123456789" sample_callback
  /\ id_and_options_assign
       (id_options_endpoint sample_queryValidation "userWips" "users/" "/wips" "userWips")
       sample_client [VStr "edmendoza3"; VObj []; sample_callback] []
    = issued [] "https://api.behance.net/v2/users/edmendoza3/wips?&client_id=123456789"
        sample_callback.
Proof.
  split.
  - apply (empty_options_skip_validation
             (option_endpoint sample_queryValidation "teams" "teams")
             sample_client (VStr "edmendoza3") (VObj []) sample_callback []); reflexivity.
  - apply (empty_options_skip_validation
             (id_options_endpoint sample_queryValidation "userWips" "users/" "/wips" "userWips")
             sample_client (VStr "edmendoza3") (VObj []) sample_callback []); reflexivity.
Defined.

(** X6: when the schema document has no entry for an endpoint, a call with
    options that have at least one key does not reach the network: reading
    the keys of the missing schema throws a [TypeError], for either family
    of methods that validate. *)
Theorem missing_schema_throws_type_error :
  forall (def : endpoint) (this : behance) (id opts cb : value)
         (k : string) (rest : list string) (net : network),
    queries def = VUndefined ->
    Object_keys opts = Return (k :: rest) ->
    rejected_id id = false ->
    option_only_assign def this [opts; cb] net
      = (Throw (TypeError "Cannot convert undefined or null to object"), net)
    /\ id_and_options_assign def this [id; opts; cb] net
      = (Throw (TypeError "Cannot convert undefined or null to object"), net).
Proof.
  intros def this id opts cb k rest net Hq Hk Hid.
  split; run_method; rewrite ?(endpoint_of_accepted _ _ Hid); cbn beta iota;
    unfold rejected_id in Hid; rewrite ?Hid, Hk;
    cbn [length Nat.eqb]; unfold compareKeys; now rewrite Hk, Hq.
Qed.

Lemma missing_schema_throws_type_error_witness :
  option_only_assign (option_endpoint sample_queryValidation "users" "users")
    sample_client [VObj [("q", VStr "matt")]; sample_callback] []
    = (Throw (TypeError "Cannot convert undefined or null to object"), [])
  /\ id_and_options_assign
       (id_options_endpoint sample_queryValidation "userWips" "users/" "/wips" "userWips")
       sample_client [VStr "edmendoza3"; VObj [("sort", VStr "views")]; sample_callback] []
    = (Throw (TypeError "Cannot convert undefined or null to object"), []).
Proof.
  split.
  - apply (missing_schema_throws_type_error
             (option_endpoint sample_queryValidation "users" "users")
             sample_client (VStr "edmendoza3") (VObj [("q", VStr "matt")]) sample_callback
             "q" [] []); reflexivity.
  - apply (missing_schema_throws_type_error
             (id_options_endpoint sample_queryValidation "userWips" "users/" "/wips" "userWips")
             sample_client (VStr "edmendoza3") (VObj [("sort", VStr "views")])
             sample_callback "sort" [] []); reflexivity.
Defined.

(** X7: the [teamProjects] entry takes its schema from the key
    [teamsProjects] of the schema document, not from the key that bears
    its own name: with a document that lacks [teamsProjects], every
    [teamProjects] call with a non-empty options object throws a
    [TypeError] and issues nothing, whatever the document lists under
    [teamProjects]. *)
Theorem teamProjects_reads_teamsProjects_schema :
  forall (qv : list (string * value)) (this : behance) (id cb : value)
         (k : string) (v : value) (rest : list (string * value)) (net : network),
    lookup "teamsProjects" qv = VUndefined ->
    rejected_id id = false ->
    In (id_options_endpoint qv "teamProjects" "teams/" "/projects" "teamsProjects")
       (endpointWithIdAndOptions qv)
    /\ id_and_options_assign
         (id_options_endpoint qv "teamProjects" "teams/" "/projects" "teamsProjects")
         this [id; VObj ((k, v) :: rest); cb] net
       = (Throw (TypeError "Cannot convert undefined or null to object"), net).
Proof.
  intros qv this id cb k v rest net Hq Hid. split.
  - simpl. tauto.
  - apply (missing_schema_throws_type_error _ this id _ cb k (map fst rest) net); easy.
Qed.

Lemma teamProjects_reads_teamsProjects_schema_witness :
  id_and_options_assign
    (id_options_endpoint [("teamProjects", VObj [("sort", VStr "")])]
       "teamProjects" "teams/" "/projects" "teamsProjects")
    sample_client
    [VStr "adobe"; VObj [("sort", VStr "views")]; sample_callback] []
  = (Throw (TypeError "Cannot convert undefined or null to object"), []).
Proof.
  apply (teamProjects_reads_teamsProjects_schema
           [("teamProjects", VObj [("sort", VStr "")])]
           sample_client (VStr "adobe") sample_callback "sort" (VStr "views") [] []);
    reflexivity.
Defined.



(** X9: a call that lacks the options argument is not reported as an
    argument error: an options-only method called without arguments, and
    an id-plus-options method called without arguments, with an accepted id
    alone, or with [undefined] options, throw the [TypeError] of
    [Object.keys(undefined)], before any request. *)
Theorem missing_options_argument_type_error :
  forall (def : endpoint) (this : behance) (id cb : value) (net : network),
    rejected_id id = false ->
    option_only_assign def this [] net
      = (Throw (TypeError "Cannot convert undefined or null to object"), net)
    /\ id_and_options_assign def this [] net
      = (Throw (TypeError "Cannot convert undefined or null to object"), net)
    /\ id_and_options_assign def this [id] net
      = (Throw (TypeError "Cannot convert undefined or null to object"), net)
    /\ id_and_options_assign def this [id; VUndefined; cb] net
      = (Throw (TypeError "Cannot convert undefined or null to object"), net).
Proof.
  intros def this id cb net Hid.
  repeat split; run_method; rewrite ?(endpoint_of_accepted _ _ Hid);
    unfold rejected_id in Hid; rewrite ?Hid; reflexivity.
Qed.

Lemma missing_options_argument_type_error_witness :
  id_and_options_assign
    (id_options_endpoint sample_queryValidation "userProjects" "users/" "/projects"
       "userProjects")
    sample_client [VStr "edmendoza3"] []
  = (Throw (TypeError "Cannot convert undefined or null to object"), []).
Proof.
  apply (missing_options_argument_type_error
           (id_options_endpoint sample_queryValidation "userProjects" "users/" "/projects"
              "userProjects")
           sample_client (VStr "edmendoza3") sample_callback []).
  reflexivity.
Defined.

(** X10: the id guard is the only source of the argument error of an
    id-plus-options method: when a call throws that error, its id is the
    empty string, [null], or an object; an [undefined] id, a number, a
    boolean and a function all pass the guard. *)
Theorem id_and_options_argument_error_only_from_guard :
  forall (def : endpoint) (this : behance) (args : list value) (net net' : network),
    id_and_options_assign def this args net
      = (Throw (Error ("." ++ to_string (name def)
                         ++ " requires at least an id and a callback function.")), net') ->
    arg 0 args = VStr "" \/ typeof (arg 0 args) = "object".
Proof.
  intros def this args net net'. run_method. fold (arg 0 args).
  destruct (endpoint_of def (arg 0 args)) as [endpoint|e] eqn:He.
  2:{ intros _. right. unfold endpoint_of in He.
      destruct (to_primitive (arg 0 args)) as [p|e'] eqn:Hp; [discriminate He|].
      apply to_primitive_throws in Hp. destruct Hp as [props ->]. reflexivity. }
  destruct (strict_eq (arg 0 args) (VStr "")) eqn:Hs.
  - intros _. left. destruct (arg 0 args) as [| |b|[z|]|s|props|src props|n m|src t r];
      try discriminate Hs. simpl in Hs. apply String.eqb_eq in Hs. now subst.
  - cbn [orb]. destruct (typeof (arg 0 args) =? "object")%string eqn:Ht.
    + intros _. right. now apply String.eqb_eq.
    + destruct (Object_keys (nth 1 args VUndefined)) as [[|k rest]|e] eqn:Hk.
      * intros H. discriminate H.
      * cbn [length Nat.eqb].
        destruct (Object_keys (queries def)) as [keys2|e] eqn:H2.
        -- rewrite (compareKeys_keys_cons _ _ (name def) k rest keys2 Hk H2).
           destruct (mem k keys2); intros H; [discriminate H | inversion H].
        -- unfold compareKeys. rewrite Hk, H2. cbn [cbind].
           destruct (queries def); try discriminate H2;
             inversion H2; subst; intros H; discriminate H.
      * destruct (nth 1 args VUndefined); try discriminate Hk;
          inversion Hk; subst; intros H; discriminate H.
Qed.

Lemma id_and_options_argument_error_only_from_guard_witness :
  arg 0 [VNull; sample_callback] = VStr "" \/ typeof (arg 0 [VNull; sample_callback]) = "object".
Proof.
  apply (id_and_options_argument_error_only_from_guard
           (id_options_endpoint sample_queryValidation "userProjects" "users/" "/projects"
              "userProjects")
           sample_client [VNull; sample_callback] [] []).
  reflexivity.
Defined.

(** X11: when the body of a response that is not forbidden fails to
    parse, the parse error, wrapped in a new [Error] whose message is the
    string form of the original, escapes from the handler; the callback is
    not called, whatever it is. *)
Theorem parse_failure_escapes_handler :
  forall (JSON_parse : string -> completion value) (cb err data e : value)
         (props : list (string * value)),
    strict_eq (lookup "statusCode" props) (VNum (Int 403)) = false ->
    JSON_parse (to_string data) = Throw e ->
    requestHandler_response JSON_parse cb err (VObj props) data
    = Raises (Error (to_string e)).
Proof.
  intros JSON_parse cb err data e props Hs Hp.
  unfold requestHandler_response. cbn [get]. now rewrite Hs, Hp.
Qed.

Lemma parse_failure_escapes_handler_witness :
  requestHandler_response sample_JSON_parse sample_callback VNull
    (VObj [("statusCode", VNum (Int 200))]) (VStr "<html>")
  = Raises (Error "SyntaxError: Unexpected end of JSON input").
Proof.
  apply (parse_failure_escapes_handler sample_JSON_parse sample_callback VNull
           (VStr "<html>") (VErr "SyntaxError" "Unexpected end of JSON input")
           [("statusCode", VNum (Int 200))]); reflexivity.
Defined.

(** X12: the handler calls nothing but the client callback, and only in
    two ways: with the single forbidden error when the status is 403, or
    with the transport error slot, the response and the parsed body; the
    third argument is always the result of parsing, never the raw body. *)
Theorem handler_outcomes :
  forall (JSON_parse : string -> completion value) (cb err res data : value),
    (exists e, requestHandler_response JSON_parse cb err res data = Raises e)
    \/ (get res "statusCode" = Return (VNum (Int 403))
        /\ requestHandler_response JSON_parse cb err res data
           = Calls cb [Error "No response from the Behance API"])
    \/ (exists payload,
          JSON_parse (to_string data) = Return payload
          /\ requestHandler_response JSON_parse cb err res data
             = Calls cb [err; res; payload]).
Proof.
  intros JSON_parse cb err res data. unfold requestHandler_response.
  destruct (get res "statusCode") as [status|e] eqn:Hg; [|left; eauto].
  destruct (strict_eq status (VNum (Int 403))) eqn:Hs.
  - assert (status = VNum (Int 403)) as ->.
    { destruct status as [| |b|[z|]|s|props|src props|n m|src t r]; try discriminate Hs.
      simpl in Hs. apply Z.eqb_eq in Hs. now subst. }
    destruct cb; cbn [call]; try (left; eexists; reflexivity); right; left; auto.
  - destruct (JSON_parse (to_string data)) as [payload|e] eqn:Hp; [|left; eauto].
    destruct cb; cbn [call]; try (left; eexists; reflexivity); right; right; eauto.
Qed.

(** X13: without a function as callback the handler can deliver nothing:
    whatever the response, an exception escapes from it.  (The methods do
    not look at the callback before they issue the request.) *)
Theorem handler_without_function_raises :
  forall (JSON_parse : string -> completion value) (cb err res data : value),
    is_function cb = false ->
    exists e, requestHandler_response JSON_parse cb err res data = Raises e.
Proof.
  intros JSON_parse cb err res data Hf. unfold requestHandler_response.
  destruct (get res "statusCode") as [status|e]; [|eauto].
  destruct (strict_eq status (VNum (Int 403))).
  - destruct cb; try discriminate Hf; cbn [call]; eauto.
  - destruct (JSON_parse (to_string data)); [|eauto].
    destruct cb; try discriminate Hf; cbn [call]; eauto.
Qed.

Lemma handler_without_function_raises_witness :
  exists e, requestHandler_response sample_JSON_parse VUndefined VNull
              (VObj [("statusCode", VNum (Int 200))]) (VStr "{}") = Raises e.
Proof.
  apply (handler_without_function_raises sample_JSON_parse VUndefined VNull
           (VObj [("statusCode", VNum (Int 200))]) (VStr "{}")).
  reflexivity.
Defined.

Lemma forbidden_delivered_witness :
  requestHandler_response sample_JSON_parse sample_callback (Error "ECONNRESET")
    (VObj [("statusCode", VNum (Int 403))]) (VStr "Forbidden")
  = Calls sample_callback [Error "No response from the Behance API"].
Proof.
  apply (forbidden_delivered sample_JSON_parse "function (err, res, data) {}" []
           [("statusCode", VNum (Int 403))] (Error "ECONNRESET") (VStr "Forbidden")).
  reflexivity.
Defined.

Lemma response_delivered_witness :
  requestHandler_response sample_JSON_parse sample_callback VNull
    (VObj [("statusCode", VNum (Int 200))]) (VStr "{}")
  = Calls sample_callback [VNull; VObj [("statusCode", VNum (Int 200))]; VObj []].
Proof.
  apply (response_delivered sample_JSON_parse "function (err, res, data) {}" []
           [("statusCode", VNum (Int 200))] VNull (VStr "{}") (VObj [])); reflexivity.
Defined.

(** X16: the prototype carries twenty-one methods under pairwise distinct
    names, whatever the schema document is, so no generated method
    replaces another one or [fields]. *)
Theorem prototype_names_distinct :
  forall (qv : list (string * value)),
    map fst (prototype qv)
    = [ "projects"; "creativesToFollow"; "users"; "teams"; "collections";
        "project"; "user"; "team"; "userStats"; "userWorkExperience"; "collection";
        "projectComments"; "userProjects"; "userWips"; "teamProjects";
        "userAppreciations"; "userCollections"; "userFollowers"; "userFollowing";
        "collectionProjects"; "fields" ]
    /\ NoDup (map fst (prototype qv)).
Proof.
  intros qv.
  assert (E : map fst (prototype qv)
              = [ "projects"; "creativesToFollow"; "users"; "teams"; "collections";
                  "project"; "user"; "team"; "userStats"; "userWorkExperience";
                  "collection"; "projectComments"; "userProjects"; "userWips";
                  "teamProjects"; "userAppreciations"; "userCollections";
                  "userFollowers"; "userFollowing"; "collectionProjects"; "fields" ])
    by reflexivity.
  split; [exact E|]. rewrite E.
  repeat (constructor; [simpl; intuition discriminate|]). constructor.
Qed.

(** X17: the validator looks at names only: two options objects with the
    same keys in the same order, checked against two schemas that list the
    same names (in any order, with any values), give the same result. *)
Theorem compareKeys_depends_on_key_names_only :
  forall (options1 options2 schema1 schema2 : list (string * value)) (fn : value),
    map fst options1 = map fst options2 ->
    (forall k, key_in k schema1 = key_in k schema2) ->
    compareKeys (VObj options1) (VObj schema1) fn
    = compareKeys (VObj options2) (VObj schema2) fn.
Proof.
  intros o1 o2 s1 s2 fn Ho Hs.
  assert (K1 : Object_keys (VObj o1) = Return (map fst o1)) by reflexivity.
  assert (K2 : Object_keys (VObj o2) = Return (map fst o1)) by (now rewrite Ho).
  destruct (map fst o1) as [|k rest].
  - rewrite (compareKeys_keys_nil (VObj o1) (VObj s1) fn (map fst s1) K1 eq_refl).
    now rewrite (compareKeys_keys_nil (VObj o2) (VObj s2) fn (map fst s2) K2 eq_refl).
  - rewrite (compareKeys_keys_cons (VObj o1) (VObj s1) fn k rest (map fst s1) K1 eq_refl).
    rewrite (compareKeys_keys_cons (VObj o2) (VObj s2) fn k rest (map fst s2) K2 eq_refl).
    specialize (Hs k). unfold key_in in Hs. now rewrite Hs.
Qed.

Lemma compareKeys_depends_on_key_names_only_witness :
  compareKeys (VObj [("sort", VStr "views")]) (VObj [("q", VStr ""); ("sort", VStr "")])
    (VStr "projects")
  = compareKeys (VObj [("sort", VNum (Int 1))]) (VObj [("sort", VNull); ("q", VBool true)])
      (VStr "projects").
Proof.
  apply (compareKeys_depends_on_key_names_only
           [("sort", VStr "views")] [("sort", VNum (Int 1))]
           [("q", VStr ""); ("sort", VStr "")] [("sort", VNull); ("q", VBool true)]
           (VStr "projects")).
  - reflexivity.
  - intros k. unfold key_in, mem. cbn [map fst existsb].
    destruct ("q" =? k)%string, ("sort" =? k)%string; reflexivity.
Defined.

(** X19: an id-plus-options method called with an id and an options
    object, but no callback, takes the options object for the callback:
    when the first of its keys is listed in the schema, the request goes
    out with an empty query and with the options object in the callback
    position. *)
Theorem two_argument_call_drops_options :
  forall (qv : list (string * value)) (def : endpoint) (this : behance) (id : value)
         (k : string) (v : value) (rest schema : list (string * value))
         (net : network),
    In def (endpointWithIdAndOptions qv) ->
    rejected_id id = false ->
    queries def = VObj schema ->
    key_in k schema = true ->
    id_and_options_assign def this [id; VObj ((k, v) :: rest)] net
    = issued net ("https://api.behance.net/v2/" ++ to_string (pathprefix def)
                    ++ to_string id ++ to_string (pathsuffix def)
                    ++ "?&client_id=" ++ to_string (clientId this))
        (VObj ((k, v) :: rest)).
Proof.
  intros qv def this id k v rest schema net Hdef Hid Hq Hin.
  assert (Hpath : endpoint_path def id
                  = VStr (to_string (pathprefix def) ++ to_string id
                            ++ to_string (pathsuffix def))).
  { simpl in Hdef.
    repeat (destruct Hdef as [<-|Hdef];
            [apply endpoint_path_string_prefix; reflexivity|]).
    destruct Hdef. }
  rewrite (id_and_options_two_arguments_accepted def this id _ net k (map fst rest) schema)
    by easy.
  rewrite Hpath, requestUrl_shape. cbn [to_string truthy Qs.stringify Qs.join flat_map].
  now rewrite !append_assoc.
Qed.

Lemma two_argument_call_drops_options_witness :
  id_and_options_assign
    (id_options_endpoint sample_queryValidation "userProjects" "users/" "/projects"
       "userProjects")
    sample_client [VStr "edmendoza3"; VObj [("sort", VStr "appreciations")]] []
  = issued [] "https://api.behance.net/v2/users/edmendoza3/projects?&client_id=123456789"
      (VObj [("sort", VStr "appreciations")]).
Proof.
  apply (two_argument_call_drops_options sample_queryValidation
           (id_options_endpoint sample_queryValidation "userProjects" "users/" "/projects"
              "userProjects")
           sample_client (VStr "edmendoza3") "sort" (VStr "appreciations") []
           [("sort", VStr ""); ("time", VStr "")] []).
  - simpl. auto.
  - reflexivity.
  - reflexivity.
  - reflexivity.
Defined.

(** X20: the options-only methods have no shortcut for a call with the
    callback alone: a function without enumerable properties in the first
    position passes as empty options, and the request is issued without
    query and with [undefined] as its callback. *)
Theorem option_only_callback_alone :
  forall (qv : list (string * value)) (def : endpoint) (this : behance)
         (src : string) (net : network),
    In def (endpointWithOptionOnly qv) ->
    option_only_assign def this [VFun src []] net
    = issued net ("https://api.behance.net/v2/" ++ to_string (path def)
                    ++ "?&client_id=" ++ to_string (clientId this)) VUndefined.
Proof.
  intros qv def this src net _. run_method. reflexivity.
Qed.

Lemma option_only_callback_alone_witness :
  option_only_assign (option_endpoint sample_queryValidation "projects" "projects")
    sample_client [sample_callback] []
  = issued [] "https://api.behance.net/v2/projects?&client_id=123456789" VUndefined.
Proof.
  apply (option_only_callback_alone sample_queryValidation
           (option_endpoint sample_queryValidation "projects" "projects")
           sample_client "function (err, res, data) {}" []).
  simpl. auto.
Defined.

(* ================================================================= *)
(** ** Conversions of an id, on examples *)

Example convert_plain_object :
  to_primitive (VObj [("sort", VStr "appreciations")]) = Return (VStr "[object Object]").
Proof. reflexivity. Qed.

Example convert_numeric_valueOf :
  to_primitive (VObj [("valueOf", VMethod "function () { return 5; }" false (VNum (Int 5)))])
  = Return (VNum (Int 5)).
Proof. reflexivity. Qed.

Example convert_own_toString :
  to_primitive (VObj [("toString", VMethod "function () { return 'me'; }" false (VStr "me"))])
  = Return (VStr "me").
Proof. reflexivity. Qed.

Example convert_valueOf_returning_object :
  to_primitive (VObj [("valueOf", VMethod "function () { return {}; }" false (VObj []))])
  = Return (VStr "[object Object]").
Proof. reflexivity. Qed.

Example convert_no_usable_method :
  to_primitive (VObj [("toString", VNull)])
  = Throw (TypeError "Cannot convert object to primitive value").
Proof. reflexivity. Qed.

Example convert_throwing_method :
  to_primitive (VObj [("valueOf", VMethod "function () { throw Error('no'); }" true (Error "no"))])
  = Throw (Error "no").
Proof. reflexivity. Qed.

Example collection_with_numeric_valueOf :
  id_only_assign collection_endpoint sample_client
    [VObj [("valueOf", VMethod "function () { return 5; }" false (VNum (Int 5)))];
     sample_callback] []
  = issued [] "https://api.behance.net/v2/NaN?&client_id=123456789" sample_callback.
Proof. reflexivity. Qed.

Example collection_with_own_toString :
  id_only_assign collection_endpoint sample_client
    [VObj [("toString", VMethod "function () { return '7'; }" false (VStr "7"))];
     sample_callback] []
  = issued [] "https://api.behance.net/v2/undefined7?&client_id=123456789" sample_callback.
Proof. reflexivity. Qed.
